(** * Ticket categorization engine ([ticket_categorizer.py])

    A shallow embedding of [categorize_ticket] and of the two pydantic
    models it works on, followed by the properties of the rule engine.

    Python [str] values are modelled as [string], read as UTF-8: an ASCII
    character is one byte, every other code point is a run of bytes above
    127.  Substring tests and concatenation on UTF-8 text agree with those
    on code points.

    [str.lower] is modelled on the code points whose lower-case form has an
    ASCII character: the ASCII letters, U+212A KELVIN SIGN (lower-case k)
    and U+0130 LATIN CAPITAL LETTER I WITH DOT ABOVE (lower-case i followed
    by U+0307).  Every other code point lower-cases to code points outside
    ASCII and is left as it is: the engine compares lower-cased text with
    ASCII keywords and ASCII literals only, and such a comparison gives the
    same result either way.  [str.upper] is modelled on the ASCII letters:
    the engine applies it to the lower-cased severity and shows the result
    only where that severity is one of its ASCII literals. *)

From Stdlib Require Import String Ascii List Bool NArith Lia.
Import ListNotations.
Open Scope string_scope.

(** ** Python string primitives used by the engine *)

Definition is_upper (c : ascii) : bool :=
  let n := N_of_ascii c in ((65 <=? n) && (n <=? 90))%N.

Definition is_lower (c : ascii) : bool :=
  let n := N_of_ascii c in ((97 <=? n) && (n <=? 122))%N.

Definition lower_char (c : ascii) : ascii :=
  if is_upper c then ascii_of_N (N_of_ascii c + 32) else c.

Definition upper_char (c : ascii) : ascii :=
  if is_lower c then ascii_of_N (N_of_ascii c - 32) else c.

(** U+212A KELVIN SIGN, in UTF-8. *)
Definition kelvin_sign : string :=
  String "226" (String "132" (String "170" "")).

(** U+0130 LATIN CAPITAL LETTER I WITH DOT ABOVE, in UTF-8. *)
Definition capital_i_with_dot : string := String "196" (String "176" "").

(** The lower-case form of U+0130: i followed by U+0307 COMBINING DOT
    ABOVE, in UTF-8. *)
Definition small_i_with_dot : string :=
  String "i" (String "204" (String "135" "")).

Definition is_capital_i_with_dot (c1 c2 : ascii) : bool :=
  ((c1 =? "196") && (c2 =? "176"))%char.

Definition is_kelvin_sign (c1 c2 c3 : ascii) : bool :=
  ((c1 =? "226") && (c2 =? "132") && (c3 =? "170"))%char.

(** [s.lower()] *)
Fixpoint lower (s : string) : string :=
  match s with
  | EmptyString => EmptyString
  | String c1 s1 =>
      match s1 with
      | String c2 s2 =>
          if is_capital_i_with_dot c1 c2 then
            small_i_with_dot ++ lower s2
          else
            match s2 with
            | String c3 s3 =>
                if is_kelvin_sign c1 c2 c3
                then String "k" (lower s3)
                else String (lower_char c1) (lower s1)
            | EmptyString => String (lower_char c1) (lower s1)
            end
      | EmptyString => String (lower_char c1) (lower s1)
      end
  end.

(** [s.upper()], on the ASCII letters. *)
Fixpoint upper (s : string) : string :=
  match s with
  | EmptyString => EmptyString
  | String c s' => String (upper_char c) (upper s')
  end.

(** [keyword in s] on two strings: [keyword] occurs in [s] as a contiguous
    run of characters, starting at any position. *)
Fixpoint contains (keyword s : string) : bool :=
  prefix keyword s ||
  match s with
  | EmptyString => false
  | String _ s' => contains keyword s'
  end.

(** [any(keyword in s for keyword in keywords)] *)
Definition any_in (keywords : list string) (s : string) : bool :=
  existsb (fun keyword => contains keyword s) keywords.

(** [x in [v1, ..., vn]] on a list of strings: membership by equality. *)
Definition str_in (x : string) (values : list string) : bool :=
  existsb (String.eqb x) values.

(** ** Data model *)

(** [class ActionType(str, Enum)] *)
Inductive ActionType : Type :=
| AI_CODE_PATCH
| VIBE_WORKFLOW.

(** [class TicketInput(BaseModel)].  The [severity] field is a string; the
    [Literal] annotation restricts it on validation, see [valid_severity]. *)
Record TicketInput : Type := {
  channel : string;
  severity : string;
  summary : string
}.

(** [class ActionPlan(BaseModel)] *)
Record ActionPlan : Type := {
  decision : ActionType;
  reasoning : string;
  next_actions_checklist : list string
}.

(** The values [Literal["critical", "high", "medium", "low"]] admits. *)
Definition severity_literals : list string :=
  ["critical"; "high"; "medium"; "low"].

Definition valid_severity (s : string) : Prop := In s severity_literals.

(** A ticket that passed the validation of [TicketInput]. *)
Definition validated (ticket : TicketInput) : Prop :=
  valid_severity (severity ticket).

(** ** The keyword lists of the rules *)

Definition code_keywords : list string :=
  ["error"; "failure"; "bug"; "404"; "500"; "incorrect calculation";
   "database"; "api down"; "system crash"].

Definition finance_keywords : list string :=
  ["fraud"; "transaction"; "payment processing"].

Definition workflow_keywords : list string :=
  ["forgot password"; "reset pin"; "locked"; "account blocked";
   "rate limit"; "cannot log in"; "update address"].

Definition inquiry_keywords : list string :=
  ["how to"; "question about"; "need help with"; "inquire"].

(** ** The rules

    Each [if ...: return ActionPlan(...)] block of [categorize_ticket] is a
    function to [option ActionPlan]: [Some plan] when the block returns,
    [None] when control goes on to the next block. *)

(** Rule 1: critical or high severity with system failure keywords. *)
Definition rule1 (ticket : TicketInput) (summary_lower severity : string)
  : option ActionPlan :=
  if str_in severity ["critical"; "high"] then
    if any_in code_keywords summary_lower then
      Some {|
        decision := AI_CODE_PATCH;
        reasoning :=
          "Severity is **" ++ upper severity ++
          "** and summary suggests a core system/code failure (`" ++
          summary ticket ++ "`).";
        next_actions_checklist :=
          ["Verify bug is reproducible in staging environment.";
           "Create a detailed Jira ticket linking logs.";
           "Tag SRE team for immediate monitoring."]
      |}
    else None
  else None.

(** Rule 2: high severity in sensitive banking operations. *)
Definition rule2 (ticket : TicketInput) (summary_lower severity : string)
  : option ActionPlan :=
  if (severity =? "high") && any_in finance_keywords summary_lower then
    Some {|
      decision := AI_CODE_PATCH;
      reasoning :=
        "Severity is **HIGH** and involves a critical financial process (`" ++
        summary ticket ++ "`). Likely requires code audit/patch.";
      next_actions_checklist :=
        ["Immediately freeze affected user accounts/processes.";
         "Alert compliance and security teams.";
         "Capture full transaction log details."]
    |}
  else None.

(** Rule 3: low or medium severity with account and credential keywords. *)
Definition rule3 (ticket : TicketInput) (summary_lower severity : string)
  : option ActionPlan :=
  if str_in severity ["medium"; "low"] then
    if any_in workflow_keywords summary_lower then
      Some {|
        decision := VIBE_WORKFLOW;
        reasoning :=
          "Severity is **" ++ upper severity ++
          "** and issue relates to known user/account procedural action. Vibe workflow exists.";
        next_actions_checklist :=
          ["Run Vibe Script 'User-Account-Unblock-v1.0'.";
           "Confirm two-factor authentication reset with user via secure channel.";
           "Document successful run in the ticket notes."]
      |}
    else None
  else None.

(** Rule 4: general inquiry or request. *)
Definition rule4 (ticket : TicketInput) (summary_lower severity : string)
  : option ActionPlan :=
  if any_in inquiry_keywords summary_lower then
    Some {|
      decision := VIBE_WORKFLOW;
      reasoning :=
        "The ticket appears to be a general inquiry or procedural request, best handled by a documented Vibe troubleshooting script.";
      next_actions_checklist :=
        ["Check internal knowledge base for an existing Vibe script.";
         "Reply with documented steps/FAQ link.";
         "If no Vibe script exists, manually triage to L1 support."]
    |}
  else None.

(** Default for the high and critical tickets no rule caught. *)
Definition default_urgent (ticket : TicketInput)
  (summary_lower severity : string) : option ActionPlan :=
  if str_in severity ["critical"; "high"] then
    Some {|
      decision := AI_CODE_PATCH;
      reasoning :=
        "Default routing for **" ++ upper severity ++
        "** tickets. System failure is the most cautious default.";
      next_actions_checklist :=
        ["Manually triage to L2 developer support.";
         "Review the system health dashboard immediately.";
         "Capture full user session data."]
    |}
  else None.

(** The final, unconditional [return]. *)
Definition default_procedural : ActionPlan := {|
  decision := VIBE_WORKFLOW;
  reasoning :=
    "Default routing for unclassified medium/low severity tickets, assumed to be procedural.";
  next_actions_checklist :=
    ["Escalate to the appropriate L1 support queue for manual review.";
     "Monitor ticket for 30 minutes for any change in status."]
|}.

(** Early return: the plan of the block when it returns, the rest of the
    function body otherwise. *)
Notation "'returning' block 'orelse' rest" :=
  (match block with Some plan => plan | None => rest end)
  (at level 10, block at level 9, rest at level 200).

(** [def categorize_ticket(ticket: TicketInput) -> ActionPlan] *)
Definition categorize_ticket (ticket : TicketInput) : ActionPlan :=
  let summary_lower := lower (summary ticket) in
  let severity := lower (severity ticket) in
  returning (rule1 ticket summary_lower severity) orelse
  returning (rule2 ticket summary_lower severity) orelse
  returning (rule3 ticket summary_lower severity) orelse
  returning (rule4 ticket summary_lower severity) orelse
  returning (default_urgent ticket summary_lower severity) orelse
  default_procedural.

(** ** Vocabulary of the properties *)

(** The outcome of a block on a ticket, with the two locals of
    [categorize_ticket] computed as the function computes them. *)
Definition fires
  (block : TicketInput -> string -> string -> option ActionPlan)
  (ticket : TicketInput) : option ActionPlan :=
  block ticket (lower (summary ticket)) (lower (severity ticket)).

Definition matched
  (block : TicketInput -> string -> string -> option ActionPlan)
  (ticket : TicketInput) : Prop :=
  fires block ticket <> None.

Definition missed
  (block : TicketInput -> string -> string -> option ActionPlan)
  (ticket : TicketInput) : Prop :=
  fires block ticket = None.

(** [keyword] occurs in [s]: the meaning of Python's [keyword in s]. *)
Definition occurs (keyword s : string) : Prop :=
  exists before after, s = before ++ keyword ++ after.

(** [s] contains at least one keyword of the list. *)
Definition mentions (keywords : list string) (s : string) : Prop :=
  exists keyword, In keyword keywords /\ occurs keyword s.

(** The six places where [categorize_ticket] returns. *)
Inductive Branch : Type :=
| Rule1 | Rule2 | Rule3 | Rule4 | DefaultUrgent | DefaultProcedural.

Definition is_some {A : Type} (o : option A) : bool :=
  match o with Some _ => true | None => false end.

(** The place where [categorize_ticket] returns on a ticket: the first block
    that fires, in the order of the source. *)
Definition branch_of (ticket : TicketInput) : Branch :=
  if is_some (fires rule1 ticket) then Rule1
  else if is_some (fires rule2 ticket) then Rule2
  else if is_some (fires rule3 ticket) then Rule3
  else if is_some (fires rule4 ticket) then Rule4
  else if is_some (fires default_urgent ticket) then DefaultUrgent
  else DefaultProcedural.

(** Two strings are re-casings of one another when they have the same
    lower-cased form. *)
Definition same_modulo_case (s1 s2 : string) : Prop := lower s1 = lower s2.

(** Two strings differ in the case of ASCII letters only: same length, and
    at each position the same byte or the two cases of one ASCII letter. *)
Fixpoint recased (s1 s2 : string) : bool :=
  match s1, s2 with
  | EmptyString, EmptyString => true
  | String c1 r1, String c2 r2 =>
      (lower_char c1 =? lower_char c2)%char && recased r1 r2
  | _, _ => false
  end.

Definition is_ascii_char (c : ascii) : bool := (N_of_ascii c <? 128)%N.

(** A string of ASCII characters, as every keyword of the engine is. *)
Fixpoint ascii_text (s : string) : bool :=
  match s with
  | EmptyString => true
  | String c s' => is_ascii_char c && ascii_text s'
  end.

(** A string of ASCII characters other than k, as every severity literal
    is. *)
Fixpoint plain_text (s : string) : bool :=
  match s with
  | EmptyString => true
  | String c s' => is_ascii_char c && negb (c =? "k")%char && plain_text s'
  end.

(** The string starts with one of the two code points [lower] treats
    apart. *)
Definition starts_special (s : string) : bool :=
  match s with
  | String c1 (String c2 s2) =>
      is_capital_i_with_dot c1 c2 ||
      match s2 with
      | String c3 _ => is_kelvin_sign c1 c2 c3
      | EmptyString => false
      end
  | _ => false
  end.

(** The reasoning text of each branch as the source writes it, with the two
    interpolated values of its f-string left as arguments: what is shown for
    the severity and what is shown for the summary.  Rule 2 spells HIGH out
    and shows the summary only; rule 3 and the urgent default show the
    severity only; rule 4 and the final default are constant strings. *)
Definition reasoning_template (branch : Branch)
  (severity_shown summary_shown : string) : string :=
  match branch with
  | Rule1 =>
      "Severity is **" ++ severity_shown ++
      "** and summary suggests a core system/code failure (`" ++
      summary_shown ++ "`)."
  | Rule2 =>
      "Severity is **HIGH** and involves a critical financial process (`" ++
      summary_shown ++ "`). Likely requires code audit/patch."
  | Rule3 =>
      "Severity is **" ++ severity_shown ++
      "** and issue relates to known user/account procedural action. Vibe workflow exists."
  | Rule4 =>
      "The ticket appears to be a general inquiry or procedural request, best handled by a documented Vibe troubleshooting script."
  | DefaultUrgent =>
      "Default routing for **" ++ severity_shown ++
      "** tickets. System failure is the most cautious default."
  | DefaultProcedural =>
      "Default routing for unclassified medium/low severity tickets, assumed to be procedural."
  end.

(** What the severity slot of a template can hold on each branch. *)
Definition shown_on (branch : Branch) : list string :=
  match branch with
  | Rule1 | DefaultUrgent => ["CRITICAL"; "HIGH"]
  | Rule3 => ["MEDIUM"; "LOW"]
  | Rule2 | Rule4 | DefaultProcedural => [""]
  end.

(** ** Sample tickets

    Scenarios D, E and F of the specification and the tickets its edge cases
    name. *)

Definition scenario_D : TicketInput :=
  {| channel := "chat"; severity := "medium";
     summary := "question about statement fees" |}.

Definition scenario_D_critical : TicketInput :=
  {| channel := "chat"; severity := "critical";
     summary := "question about statement fees" |}.

Definition scenario_E : TicketInput :=
  {| channel := "email"; severity := "critical";
     summary := "app feels slow today" |}.

Definition scenario_F : TicketInput :=
  {| channel := "email"; severity := "low";
     summary := "just checking balance" |}.

Definition empty_summary : TicketInput :=
  {| channel := "email"; severity := "medium"; summary := "" |}.

Definition number_inside_number : TicketInput :=
  {| channel := "web"; severity := "high"; summary := "object 40499" |}.

Definition both_keyword_sets : TicketInput :=
  {| channel := "phone"; severity := "high";
     summary := "database error, forgot password" |}.

Definition plain : TicketInput :=
  {| channel := "email"; severity := "high"; summary := "database error" |}.



Definition slow_app_high : TicketInput :=
  {| channel := "email"; severity := "high";
     summary := "app feels slow today" |}.

Definition low_with_code_keywords : TicketInput :=
  {| channel := "email"; severity := "low";
     summary := "500 error, database failure, fraud" |}.

Definition by_email : TicketInput :=
  {| channel := "email"; severity := "high";
     summary := "suspicious transaction flagged" |}.

Definition at_branch_office : TicketInput :=
  {| channel := "branch office"; severity := "high";
     summary := "suspicious transaction flagged" |}.

Definition scenario_C : TicketInput :=
  {| channel := "app"; severity := "low";
     summary := "forgot password, locked out" |}.

Definition reset_pin_inquiry : TicketInput :=
  {| channel := "app"; severity := "medium";
     summary := "How to reset PIN after a database error" |}.

Definition critical_fraud : TicketInput :=
  {| channel := "phone"; severity := "critical";
     summary := "fraud suspected on a payment processing batch" |}.

Definition unknown_severity : TicketInput :=
  {| channel := "email"; severity := "urgent";
     summary := "system crash, database error" |}.


(** Summary ACCOUNT LOCKED with U+212A KELVIN SIGN for its K. *)
Definition kelvin_locked : TicketInput :=
  {| channel := "email"; severity := "low";
     summary := "ACCOUNT LOC" ++ kelvin_sign ++ "ED" |}.

(** Summary inquire with U+0131 LATIN SMALL LETTER DOTLESS I for its first
    letter; [str.upper] turns it into INQUIRE. *)
Definition dotless_inquire : TicketInput :=
  {| channel := "email"; severity := "critical";
     summary := String "196" (String "177" "nquire") |}.

Definition capital_inquire : TicketInput :=
  {| channel := "email"; severity := "critical"; summary := "INQUIRE" |}.

Definition padded : TicketInput :=
  {| channel := "email"; severity := "High";
     summary := "Fwd: database error (how to proceed?)" |}.

(** ** The plan of each branch

    The decision and the checklist each [return] of [categorize_ticket]
    writes, by branch. *)

Definition branch_decision (branch : Branch) : ActionType :=
  match branch with
  | Rule1 | Rule2 | DefaultUrgent => AI_CODE_PATCH
  | Rule3 | Rule4 | DefaultProcedural => VIBE_WORKFLOW
  end.

Definition branch_checklist (branch : Branch) : list string :=
  match branch with
  | Rule1 =>
      ["Verify bug is reproducible in staging environment.";
       "Create a detailed Jira ticket linking logs.";
       "Tag SRE team for immediate monitoring."]
  | Rule2 =>
      ["Immediately freeze affected user accounts/processes.";
       "Alert compliance and security teams.";
       "Capture full transaction log details."]
  | Rule3 =>
      ["Run Vibe Script 'User-Account-Unblock-v1.0'.";
       "Confirm two-factor authentication reset with user via secure channel.";
       "Document successful run in the ticket notes."]
  | Rule4 =>
      ["Check internal knowledge base for an existing Vibe script.";
       "Reply with documented steps/FAQ link.";
       "If no Vibe script exists, manually triage to L1 support."]
  | DefaultUrgent =>
      ["Manually triage to L2 developer support.";
       "Review the system health dashboard immediately.";
       "Capture full user session data."]
  | DefaultProcedural =>
      ["Escalate to the appropriate L1 support queue for manual review.";
       "Monitor ticket for 30 minutes for any change in status."]
  end.

(** The keywords of rule 3 other than "account blocked". *)
Definition workflow_keywords_but_blocked : list string :=
  ["forgot password"; "reset pin"; "locked";
   "rate limit"; "cannot log in"; "update address"].

(** * Properties *)

(** ** Substring containment *)

Lemma prefix_true_iff (keyword s : string) :
  prefix keyword s = true <-> exists after, s = keyword ++ after.
Proof.
  revert s; induction keyword as [|c keyword IH]; intros s.
  - split; [intros _; exists s; reflexivity|].
    intros _; destruct s; reflexivity.
  - destruct s as [|d s]; simpl.
    + split; [discriminate|intros [after E]; discriminate E].
    + destruct (ascii_dec c d) as [->|ne].
      * rewrite IH; split; intros [after E]; exists after.
        -- now rewrite E.
        -- now injection E.
      * split; [discriminate|].
        intros [after E]; injection E as E1 _; congruence.
Qed.

Lemma contains_cons (keyword : string) (c : ascii) (s : string) :
  contains keyword (String c s)
  = prefix keyword (String c s) || contains keyword s.
Proof. reflexivity. Qed.

Lemma contains_nil (keyword : string) :
  contains keyword "" = prefix keyword "".
Proof. simpl; apply orb_false_r. Qed.

(** [contains] decides occurrence as a contiguous run. *)
Lemma contains_occurs (keyword s : string) :
  contains keyword s = true <-> occurs keyword s.
Proof.
  unfold occurs; induction s as [|c s IH].
  - rewrite contains_nil, prefix_true_iff; split.
    + intros [after E]; now exists "", after.
    + intros [[|b before] [after E]]; [now exists after|discriminate E].
  - rewrite contains_cons, orb_true_iff, prefix_true_iff, IH; split.
    + intros [[after E]|[before [after E]]].
      * now exists "", after.
      * exists (String c before), after; simpl; now rewrite E.
    + intros [[|b before] [after E]].
      * left; now exists after.
      * right; exists before, after; simpl in E; now injection E.
Qed.

Lemma any_in_mentions (keywords : list string) (s : string) :
  any_in keywords s = true <-> mentions keywords s.
Proof.
  unfold any_in, mentions; rewrite existsb_exists.
  split; intros [keyword [Hin H]]; exists keyword; split; trivial;
    now apply contains_occurs.
Qed.

Lemma any_in_false (keywords : list string) (s : string) :
  any_in keywords s = false <-> ~ mentions keywords s.
Proof.
  rewrite <- any_in_mentions; destruct (any_in keywords s); split;
    congruence.
Qed.

Lemma str_in_In (x : string) (values : list string) :
  str_in x values = true <-> In x values.
Proof.
  unfold str_in; rewrite existsb_exists; split.
  - intros [v [Hin E]]; apply String.eqb_eq in E; now subst.
  - intros Hin; exists x; split; trivial; apply String.eqb_refl.
Qed.

(** ** Lower-casing *)

Lemma lower_kelvin (r : string) : lower (kelvin_sign ++ r) = String "k" (lower r).
Proof. reflexivity. Qed.
Lemma lower_dotted (r : string) :
  lower (capital_i_with_dot ++ r) = small_i_with_dot ++ lower r.
Proof. reflexivity. Qed.

Lemma is_capital_i_with_dot_true (c1 c2 : ascii) :
  is_capital_i_with_dot c1 c2 = true -> c1 = "196"%char /\ c2 = "176"%char.
Proof.
  unfold is_capital_i_with_dot; rewrite andb_true_iff, !Ascii.eqb_eq; tauto.
Qed.

Lemma is_kelvin_sign_true (c1 c2 c3 : ascii) :
  is_kelvin_sign c1 c2 c3 = true ->
  c1 = "226"%char /\ c2 = "132"%char /\ c3 = "170"%char.
Proof.
  unfold is_kelvin_sign; rewrite !andb_true_iff, !Ascii.eqb_eq; tauto.
Qed.

Lemma starts_special_cases (s : string) :
  starts_special s = true ->
  (exists r, s = capital_i_with_dot ++ r) \/ (exists r, s = kelvin_sign ++ r).
Proof.
  destruct s as [|c1 [|c2 s2]]; try discriminate; simpl.
  destruct (is_capital_i_with_dot c1 c2) eqn:D.
  - apply is_capital_i_with_dot_true in D as [-> ->].
    intros _; left; exists s2; reflexivity.
  - destruct s2 as [|c3 s3]; simpl; try discriminate.
    intros K; apply is_kelvin_sign_true in K as [-> [-> ->]].
    right; exists s3; reflexivity.
Qed.

Lemma lower_plain (c : ascii) (r : string) :
  starts_special (String c r) = false ->
  lower (String c r) = String (lower_char c) (lower r).
Proof.
  destruct r as [|c2 [|c3 r3]]; try reflexivity; cbn [starts_special lower].
  - rewrite orb_false_r; intros ->; reflexivity.
  - rewrite orb_false_iff; intros [-> ->]; reflexivity.
Qed.

(** The shape of [lower s], by the code point [s] starts with. *)
Lemma lower_cases (s : string) :
  (s = "" /\ lower s = "") \/
  (exists r, s = kelvin_sign ++ r /\ lower s = String "k" (lower r)) \/
  (exists r, s = capital_i_with_dot ++ r /\
             lower s = small_i_with_dot ++ lower r) \/
  (exists c r, s = String c r /\ starts_special s = false /\
               lower s = String (lower_char c) (lower r)).
Proof.
  destruct s as [|c r]; [left; split; reflexivity|right].
  destruct (starts_special (String c r)) eqn:S.
  - destruct (starts_special_cases _ S) as [[r' E] | [r' E]]; rewrite E.
    + right; left; exists r'; split; reflexivity.
    + left; exists r'; split; reflexivity.
  - right; right; exists c, r; repeat split; trivial.
    now apply lower_plain.
Qed.

Lemma length_app (a b : string) :
  String.length (a ++ b) = String.length a + String.length b.
Proof. induction a as [|c a IH]; simpl; [reflexivity | now rewrite IH]. Qed.

Lemma app_assoc_string (a b c : string) : (a ++ b) ++ c = a ++ b ++ c.
Proof. induction a as [|x a IH]; simpl; [reflexivity | now rewrite IH]. Qed.

(** *** ASCII keywords in lower-cased text *)

Lemma lower_char_ascii (c : ascii) :
  is_ascii_char (lower_char c) = is_ascii_char c.
Proof. destruct c as [[] [] [] [] [] [] [] []]; reflexivity. Qed.

Lemma starts_special_ascii (c : ascii) (r : string) :
  is_ascii_char c = true -> starts_special (String c r) = false.
Proof.
  intros A; destruct (starts_special (String c r)) eqn:S; trivial.
  destruct (starts_special_cases _ S) as [[r' E] | [r' E]];
    injection E as -> _; discriminate A.
Qed.

Lemma prefix_cons (a b : ascii) (s t : string) :
  prefix (String a s) (String b t) = true <-> a = b /\ prefix s t = true.
Proof.
  simpl; destruct (ascii_dec a b) as [-> | ne]; [tauto|].
  split; [discriminate | tauto].
Qed.

Lemma prefix_nil_l (s : string) : prefix "" s = true.
Proof. destruct s; reflexivity. Qed.

Lemma prefix_nil_r (keyword : string) : prefix keyword "" = true -> keyword = "".
Proof. destruct keyword; [reflexivity | discriminate]. Qed.

Lemma contains_empty (s : string) : contains "" s = true.
Proof. destruct s; reflexivity. Qed.

Lemma contains_tail (keyword : string) (c : ascii) (s : string) :
  contains keyword s = true -> contains keyword (String c s) = true.
Proof. intros H; simpl; rewrite H; apply orb_true_r. Qed.

Lemma contains_app_l (keyword before s : string) :
  contains keyword s = true -> contains keyword (before ++ s) = true.
Proof.
  intros H; induction before as [|c before IH]; simpl; trivial.
  rewrite IH; apply orb_true_r.
Qed.

(** An ASCII keyword does not start at a byte outside ASCII. *)
Lemma contains_skip (keyword : string) (c : ascii) (s : string) :
  ascii_text keyword = true ->
  is_ascii_char c = false ->
  contains keyword (String c s) = true ->
  contains keyword s = true.
Proof.
  intros A N; cbn [contains]; rewrite orb_true_iff; intros [P | T]; trivial.
  destruct keyword as [|k keyword]; [apply contains_empty|].
  apply prefix_cons in P as [-> _].
  simpl in A; rewrite N in A; discriminate A.
Qed.

(** One more byte in front keeps the keywords found. *)
Lemma contains_lower_cons (keyword : string) (c : ascii) (s : string) :
  ascii_text keyword = true ->
  contains keyword (lower s) = true ->
  contains keyword (lower (String c s)) = true.
Proof.
  intros A H.
  destruct (lower_cases (String c s))
    as [[E _] | [[r [E L]] | [[r [E L]] | [c' [r [E [_ L]]]]]]];
    try discriminate E; rewrite L.
  - injection E as -> ->.
    rewrite lower_plain in H by (destruct r; reflexivity).
    apply contains_skip in H; trivial.
    rewrite lower_plain in H by (destruct r as [|? []]; reflexivity).
    apply contains_skip in H; trivial.
    now apply contains_tail.
  - injection E as -> ->.
    rewrite lower_plain in H by (destruct r as [|? []]; reflexivity).
    apply contains_skip in H; trivial.
    now apply contains_app_l.
  - injection E as <- <-; now apply contains_tail.
Qed.

Lemma contains_lower_app_l (keyword before s : string) :
  ascii_text keyword = true ->
  contains keyword (lower s) = true ->
  contains keyword (lower (before ++ s)) = true.
Proof.
  intros A H; induction before as [|c before IH]; simpl app; trivial.
  now apply contains_lower_cons.
Qed.

(** Text added at the end keeps an ASCII keyword found at the start. *)
Lemma prefix_lower_app_r (after : string) (n : nat) :
  forall keyword s : string,
    String.length s <= n ->
    ascii_text keyword = true ->
    prefix keyword (lower s) = true ->
    prefix keyword (lower (s ++ after)) = true.
Proof.
  induction n as [|n IH]; intros keyword s Hlen A P.
  - destruct s; [|simpl in Hlen; lia].
    apply prefix_nil_r in P as ->; apply prefix_nil_l.
  - destruct keyword as [|k keyword]; [apply prefix_nil_l|].
    cbn [ascii_text] in A; apply andb_true_iff in A as [Ak A].
    destruct (lower_cases s)
      as [[_ L] | [[r [E L]] | [[r [E L]] | [c [r [E [S L]]]]]]];
      rewrite L in P.
    + discriminate P.
    + subst s; rewrite app_assoc_string, lower_kelvin.
      apply prefix_cons in P as [-> P]; apply prefix_cons; split; trivial.
      apply IH; trivial; rewrite length_app in Hlen; simpl in Hlen; lia.
    + subst s; rewrite app_assoc_string, lower_dotted.
      unfold small_i_with_dot in *; cbn [append] in *.
      apply prefix_cons in P as [-> P]; apply prefix_cons; split; trivial.
      destruct keyword as [|k' keyword]; [apply prefix_nil_l|].
      apply prefix_cons in P as [-> _]; discriminate A.
    + subst s; apply prefix_cons in P as [-> P].
      rewrite lower_char_ascii in Ak.
      cbn [append]; rewrite lower_plain by now apply starts_special_ascii.
      apply prefix_cons; split; trivial.
      apply IH; trivial; simpl in Hlen; lia.
Qed.

(** Text added at the end keeps the ASCII keywords found. *)
Lemma contains_lower_app_r (keyword after : string) (n : nat) :
  forall s : string,
    String.length s <= n ->
    ascii_text keyword = true ->
    contains keyword (lower s) = true ->
    contains keyword (lower (s ++ after)) = true.
Proof.
  induction n as [|n IH]; intros s Hlen A H.
  - destruct s; [|simpl in Hlen; lia].
    simpl in H; rewrite orb_false_r in H.
    apply prefix_nil_r in H as ->; apply contains_empty.
  - assert (Hp : prefix keyword (lower s) = true ->
                 contains keyword (lower (s ++ after)) = true).
    { intros P; apply (prefix_lower_app_r after (S n)) in P; trivial.
      destruct (lower (s ++ after)); cbn [contains]; rewrite P; reflexivity. }
    destruct (lower_cases s)
      as [[-> L] | [[r [E L]] | [[r [E L]] | [c [r [E [S L]]]]]]].
    + apply Hp; simpl in H; rewrite orb_false_r in H; exact H.
    + rewrite L in H; cbn [contains] in H; apply orb_true_iff in H as [P | T].
      * apply Hp; now rewrite L.
      * subst s; rewrite app_assoc_string.
        apply contains_lower_app_l; trivial.
        apply IH; trivial; rewrite length_app in Hlen; simpl in Hlen; lia.
    + rewrite L in H; unfold small_i_with_dot in H; cbn [append contains] in H.
      apply orb_true_iff in H as [P | T].
      * apply Hp; now rewrite L.
      * assert (T' : contains keyword (lower r) = true).
        { apply (contains_skip keyword "135"); trivial.
          apply (contains_skip keyword "204"); trivial. }
        subst s; rewrite app_assoc_string.
        apply contains_lower_app_l; trivial.
        apply IH; trivial; rewrite length_app in Hlen; simpl in Hlen; lia.
    + rewrite L in H; cbn [contains] in H; apply orb_true_iff in H as [P | T].
      * apply Hp; now rewrite L.
      * subst s; cbn [append].
        apply contains_lower_cons; trivial.
        apply IH; trivial; simpl in Hlen; lia.
Qed.

(** *** Letter case of ASCII letters *)


Lemma upper_lower_char (c : ascii) : upper_char (lower_char c) = upper_char c.
Proof. destruct c as [[] [] [] [] [] [] [] []]; reflexivity. Qed.








(** A lower-cased form made of ASCII characters other than k comes from
    ASCII text, so upper-casing gives the same result before and after. *)
Lemma upper_of_lower (n : nat) :
  forall s : string,
    String.length s <= n ->
    plain_text (lower s) = true -> upper (lower s) = upper s.
Proof.
  induction n as [|n IH]; intros s Hlen P.
  - destruct s; [reflexivity | simpl in Hlen; lia].
  - destruct (lower_cases s)
      as [[-> L] | [[r [E L]] | [[r [E L]] | [c [r [E [S L]]]]]]];
      try rewrite L in *.
    + reflexivity.
    + discriminate P.
    + discriminate P.
    + subst s; cbn [plain_text upper] in *.
      apply andb_true_iff in P as [_ P].
      rewrite upper_lower_char; f_equal.
      apply IH; trivial; simpl in Hlen; lia.
Qed.


(** ** The engine *)

Arguments any_in : simpl never.

(** Unfold the function body down to its guards. *)
Ltac open_engine :=
  unfold categorize_ticket, branch_of, matched, missed, fires,
    rule1, rule2, rule3, rule4, default_urgent in *.

(** Case analysis on every guard still standing in the goal: the membership
    tests on the severity, the keyword scans and the comparison of rule 2. *)
Ltac split_guards :=
  repeat (match goal with
          | |- context [str_in ?x ?l] => destruct (str_in x l) eqn:?
          | |- context [any_in ?l ?s] => destruct (any_in l s) eqn:?
          | |- context [String.eqb ?x ?y] => destruct (String.eqb x y) eqn:?
          end; cbn [andb orb is_some]).

(** Turn keyword hypotheses into the boolean tests of the source. *)
Ltac keyword_tests :=
  repeat match goal with
         | H : mentions _ _ |- _ => apply any_in_mentions in H
         | H : ~ mentions _ _ |- _ => apply any_in_false in H
         end.

Lemma checklist_never_empty (ticket : TicketInput) :
  next_actions_checklist (categorize_ticket ticket) <> [].
Proof. open_engine; split_guards; simpl; discriminate. Qed.

(** The plan, read off the branch taken. *)
Lemma branch_normal_form (ticket : TicketInput) :
  categorize_ticket ticket =
    {| decision := branch_decision (branch_of ticket);
       reasoning :=
         reasoning_template (branch_of ticket)
           (upper (lower (severity ticket))) (summary ticket);
       next_actions_checklist := branch_checklist (branch_of ticket) |}.
Proof. open_engine; split_guards; reflexivity. Qed.

(** C1. Totality: on every validated ticket (severity critical, high, medium
    or low; any summary, the empty one included; any channel)
    [categorize_ticket] returns a plan, and its checklist is not empty. *)
Theorem categorize_ticket_total :
  forall ticket : TicketInput,
    validated ticket ->
    exists plan : ActionPlan,
      categorize_ticket ticket = plan /\
      next_actions_checklist plan <> [].
Proof.
  intros ticket _; exists (categorize_ticket ticket); split; trivial.
  apply checklist_never_empty.
Qed.

Lemma categorize_ticket_total_witness :
  validated empty_summary /\
  exists plan : ActionPlan,
    categorize_ticket empty_summary = plan /\
    next_actions_checklist plan <> [].
Proof.
  assert (V : validated empty_summary)
    by (unfold validated, valid_severity; simpl; tauto).
  split; [exact V | exact (categorize_ticket_total _ V)].
Defined.

(** C2. Rule 1: when the severity is critical or high and the lower-cased
    summary contains one of the code keywords as a plain substring, the
    decision is AI_CODE_PATCH. *)
Theorem rule1_gives_code_patch :
  forall ticket : TicketInput,
    severity ticket = "critical" \/ severity ticket = "high" ->
    mentions code_keywords (lower (summary ticket)) ->
    decision (categorize_ticket ticket) = AI_CODE_PATCH.
Proof.
  intros ticket Hsev Hkw; keyword_tests; open_engine.
  destruct Hsev as [-> | ->]; simpl; rewrite Hkw; reflexivity.
Qed.

(** "404" inside "object 40499" counts as a match. *)
Lemma rule1_gives_code_patch_witness :
  severity number_inside_number = "high" /\
  occurs "404" (lower (summary number_inside_number)) /\
  decision (categorize_ticket number_inside_number) = AI_CODE_PATCH.
Proof.
  assert (O : occurs "404" (lower (summary number_inside_number)))
    by (exists "object ", "99"; reflexivity).
  split; [reflexivity|]. split; [exact O|].
  apply rule1_gives_code_patch; [right; reflexivity|].
  exists "404"; split; [simpl; tauto | exact O].
Defined.

(** C3. Priority ordering: on a ticket of severity high whose summary matches
    both a rule-1 keyword and a rule-3 keyword, the plan returned is the one
    rule 1 builds (AI_CODE_PATCH, rule 1's reasoning and checklist); rule 3
    does not fire and the decision is not VIBE_WORKFLOW. *)
Theorem rule1_before_rule3 :
  forall ticket : TicketInput,
    severity ticket = "high" ->
    mentions code_keywords (lower (summary ticket)) ->
    mentions workflow_keywords (lower (summary ticket)) ->
    fires rule1 ticket = Some (categorize_ticket ticket) /\
    branch_of ticket = Rule1 /\
    categorize_ticket ticket =
      {| decision := AI_CODE_PATCH;
         reasoning :=
           "Severity is **HIGH** and summary suggests a core system/code failure (`"
           ++ summary ticket ++ "`).";
         next_actions_checklist :=
           ["Verify bug is reproducible in staging environment.";
            "Create a detailed Jira ticket linking logs.";
            "Tag SRE team for immediate monitoring."] |} /\
    fires rule3 ticket = None /\
    decision (categorize_ticket ticket) <> VIBE_WORKFLOW.
Proof.
  intros ticket Hsev Hcode Hflow; keyword_tests; open_engine.
  rewrite Hsev; simpl; rewrite Hcode; simpl.
  repeat split; discriminate.
Qed.

Lemma rule1_before_rule3_witness :
  mentions code_keywords (lower (summary both_keyword_sets)) /\
  mentions workflow_keywords (lower (summary both_keyword_sets)) /\
  branch_of both_keyword_sets = Rule1 /\
  decision (categorize_ticket both_keyword_sets) <> VIBE_WORKFLOW.
Proof.
  assert (K1 : mentions code_keywords (lower (summary both_keyword_sets)))
    by (apply any_in_mentions; reflexivity).
  assert (K3 : mentions workflow_keywords
                 (lower (summary both_keyword_sets)))
    by (apply any_in_mentions; reflexivity).
  split; [exact K1|]. split; [exact K3|].
  pose proof (rule1_before_rule3 both_keyword_sets eq_refl K1 K3) as P.
  split; apply P.
Defined.

(** C6. Rule 4 does not look at the severity: whenever rules 1 to 3 did not
    fire and the lower-cased summary contains an inquiry keyword, the decision
    is VIBE_WORKFLOW (by rule 4), for every severity. *)
Theorem rule4_any_severity :
  forall ticket : TicketInput,
    missed rule1 ticket ->
    missed rule2 ticket ->
    missed rule3 ticket ->
    mentions inquiry_keywords (lower (summary ticket)) ->
    decision (categorize_ticket ticket) = VIBE_WORKFLOW /\
    branch_of ticket = Rule4.
Proof.
  intros ticket M1 M2 M3 Hkw; keyword_tests; open_engine.
  rewrite M1, M2, M3, Hkw; split; reflexivity.
Qed.

(** Scenario D, and the same summary under severity critical. *)
Lemma rule4_any_severity_witness :
  decision (categorize_ticket scenario_D) = VIBE_WORKFLOW /\
  decision (categorize_ticket scenario_D_critical) = VIBE_WORKFLOW.
Proof.
  split.
  - apply (rule4_any_severity scenario_D); try reflexivity.
    apply any_in_mentions; reflexivity.
  - apply (rule4_any_severity scenario_D_critical); try reflexivity.
    apply any_in_mentions; reflexivity.
Defined.

(** C7. Default routing: a ticket on which none of rules 1 to 4 fired gets
    AI_CODE_PATCH when its severity is critical or high and VIBE_WORKFLOW
    when its severity is medium or low. *)
Theorem default_routing :
  forall ticket : TicketInput,
    missed rule1 ticket ->
    missed rule2 ticket ->
    missed rule3 ticket ->
    missed rule4 ticket ->
    (severity ticket = "critical" \/ severity ticket = "high" ->
     decision (categorize_ticket ticket) = AI_CODE_PATCH /\
     branch_of ticket = DefaultUrgent) /\
    (severity ticket = "medium" \/ severity ticket = "low" ->
     decision (categorize_ticket ticket) = VIBE_WORKFLOW /\
     branch_of ticket = DefaultProcedural).
Proof.
  intros ticket M1 M2 M3 M4; open_engine.
  rewrite M1, M2, M3, M4.
  split; intros [E | E]; rewrite E; split; reflexivity.
Qed.

(** Scenarios E and F. *)
Lemma default_routing_witness :
  decision (categorize_ticket scenario_E) = AI_CODE_PATCH /\
  decision (categorize_ticket scenario_F) = VIBE_WORKFLOW.
Proof.
  split.
  - apply (default_routing scenario_E); try reflexivity.
    left; reflexivity.
  - apply (default_routing scenario_F); try reflexivity.
    right; reflexivity.
Defined.

(** C10. A ticket of severity medium or low never gets AI_CODE_PATCH: its
    decision is VIBE_WORKFLOW whatever the summary. *)
Theorem routine_severity_never_code_patch :
  forall ticket : TicketInput,
    severity ticket = "medium" \/ severity ticket = "low" ->
    decision (categorize_ticket ticket) = VIBE_WORKFLOW.
Proof.
  intros ticket [E | E]; open_engine; rewrite E; simpl;
    split_guards; reflexivity.
Qed.

Lemma routine_severity_never_code_patch_witness :
  mentions code_keywords (lower (summary low_with_code_keywords)) /\
  decision (categorize_ticket low_with_code_keywords) = VIBE_WORKFLOW.
Proof.
  split; [apply any_in_mentions; reflexivity|].
  apply routine_severity_never_code_patch; right; reflexivity.
Defined.

(** C9. The channel does not interfere: two tickets with the same severity
    and the same summary get the same plan, whatever their channels. *)
Theorem channel_noninterference :
  forall ticket1 ticket2 : TicketInput,
    severity ticket1 = severity ticket2 ->
    summary ticket1 = summary ticket2 ->
    categorize_ticket ticket1 = categorize_ticket ticket2.
Proof.
  intros [c1 v1 s1] [c2 v2 s2]; simpl; intros -> ->.
  reflexivity.
Qed.

Lemma channel_noninterference_witness :
  channel by_email <> channel at_branch_office /\
  categorize_ticket by_email = categorize_ticket at_branch_office.
Proof.
  split; [discriminate|].
  apply channel_noninterference; reflexivity.
Defined.

(** ** Letter case *)

Lemma lower_valid_severity (s : string) :
  valid_severity s -> lower s = s.
Proof.
  unfold valid_severity; simpl.
  intros [<- | [<- | [<- | [<- | []]]]]; reflexivity.
Qed.





(** Outside ASCII the case of a letter can matter: [str.upper] turns the
    summary of the first ticket below into the summary of the second, and
    the first gets AI_CODE_PATCH from the urgent default while the second
    gets VIBE_WORKFLOW from rule 4. *)
Lemma dotless_i_changes_decision :
  recased (summary dotless_inquire) (summary capital_inquire) = false /\
  decision (categorize_ticket dotless_inquire) = AI_CODE_PATCH /\
  decision (categorize_ticket capital_inquire) = VIBE_WORKFLOW.
Proof. repeat split. Qed.

(** ** Reasoning text *)

(** The reasoning returned is the template of the branch taken, filled with
    the upper-cased form of the lower-cased severity and with the summary as
    it was given. *)
Lemma reasoning_follows_template (ticket : TicketInput) :
  reasoning (categorize_ticket ticket)
  = reasoning_template (branch_of ticket)
      (upper (lower (severity ticket))) (summary ticket).
Proof. open_engine; split_guards; reflexivity. Qed.

Lemma reasoning_shape (ticket : TicketInput) :
  exists shown : string,
    In shown (shown_on (branch_of ticket)) /\
    reasoning (categorize_ticket ticket)
    = reasoning_template (branch_of ticket) shown (summary ticket).
Proof.
  open_engine.
  destruct (str_in (lower (severity ticket)) ["critical"; "high"]) eqn:U;
    destruct (str_in (lower (severity ticket)) ["medium"; "low"]) eqn:R;
    try (apply str_in_In in U; simpl in U);
    try (apply str_in_In in R; simpl in R);
    repeat match goal with
           | H : _ \/ _ |- _ => destruct H as [H | H]
           | H : False |- _ => destruct H
           end;
    try congruence;
    try match goal with
        | H : _ = lower (severity ticket) |- _ => rewrite <- H
        end;
    split_guards; simpl;
    first [ exists "CRITICAL"; split; [simpl; tauto | reflexivity]
          | exists "HIGH"; split; [simpl; tauto | reflexivity]
          | exists "MEDIUM"; split; [simpl; tauto | reflexivity]
          | exists "LOW"; split; [simpl; tauto | reflexivity]
          | exists ""; split; [simpl; tauto | reflexivity] ].
Qed.

(** Templates of different branches never produce the same text, whatever
    the summaries: the reasoning names the branch. *)
Lemma templates_apart (b1 b2 : Branch) (v1 v2 s1 s2 : string) :
  In v1 (shown_on b1) ->
  In v2 (shown_on b2) ->
  reasoning_template b1 v1 s1 = reasoning_template b2 v2 s2 ->
  b1 = b2.
Proof.
  destruct b1, b2; simpl; intros H1 H2 E; try reflexivity; exfalso;
    repeat match goal with
           | H : _ \/ _ |- _ => destruct H as [H | H]
           | H : False |- _ => destruct H
           end;
    subst; simpl in E; discriminate E.
Qed.

(** The branches that show the severity are taken only when its lower-cased
    form is one of the four literals. *)
Lemma shown_severity_is_literal (ticket : TicketInput) :
  match branch_of ticket with
  | Rule1 | Rule3 | DefaultUrgent =>
      In (lower (severity ticket)) severity_literals
  | Rule2 | Rule4 | DefaultProcedural => True
  end.
Proof.
  open_engine; unfold severity_literals.
  destruct (str_in (lower (severity ticket)) ["critical"; "high"]) eqn:U;
    destruct (str_in (lower (severity ticket)) ["medium"; "low"]) eqn:R;
    try (apply str_in_In in U; simpl in U);
    try (apply str_in_In in R; simpl in R);
    split_guards; simpl; tauto.
Qed.

Lemma upper_of_literal (s : string) :
  In (lower s) severity_literals -> upper (lower s) = upper s.
Proof.
  intros H; apply (upper_of_lower _ _ (le_n _)).
  simpl in H; destruct H as [<- | [<- | [<- | [<- | []]]]]; reflexivity.
Qed.

(** C8, as the code has it.  On every ticket the reasoning is the fixed
    template of the branch taken, filled with the summary as given and with
    the severity in upper case; and the text names the branch: no ticket
    taking another branch gets the same reasoning. *)
Theorem reasoning_is_branch_template :
  forall ticket : TicketInput,
    reasoning (categorize_ticket ticket)
    = reasoning_template (branch_of ticket)
        (upper (severity ticket)) (summary ticket) /\
    (forall other : TicketInput,
        reasoning (categorize_ticket other)
        = reasoning (categorize_ticket ticket) ->
        branch_of other = branch_of ticket).
Proof.
  intros ticket; split.
  - rewrite reasoning_follows_template.
    pose proof (shown_severity_is_literal ticket) as L.
    destruct (branch_of ticket); cbn [reasoning_template];
      try rewrite (upper_of_literal _ L); reflexivity.
  - intros other E.
    destruct (reasoning_shape ticket) as [v [Hv Ev]].
    destruct (reasoning_shape other) as [w [Hw Ew]].
    rewrite Ev, Ew in E.
    exact (templates_apart _ _ _ _ _ _ Hw Hv E).
Qed.

(** A summary whose K is U+212A KELVIN SIGN: rule 3 finds locked in the
    lower-cased summary, and the reasoning shows LOW for low. *)
Lemma reasoning_is_branch_template_witness :
  branch_of kelvin_locked = Rule3 /\
  reasoning (categorize_ticket kelvin_locked)
  = "Severity is **LOW** and issue relates to known user/account procedural action. Vibe workflow exists.".
Proof.
  split; [reflexivity|].
  exact (proj1 (reasoning_is_branch_template kelvin_locked)).
Defined.

(** C8, as stated, fails where a template shows the severity: the ticket
    says high, the reasoning says HIGH, so the text is not the template
    filled with the severity as given, and the severity as given does not
    occur in it at all. *)
Lemma severity_not_shown_verbatim :
  validated slow_app_high /\
  branch_of slow_app_high = DefaultUrgent /\
  reasoning (categorize_ticket slow_app_high)
  = "Default routing for **HIGH** tickets. System failure is the most cautious default." /\
  reasoning (categorize_ticket slow_app_high)
  <> reasoning_template (branch_of slow_app_high)
       (severity slow_app_high) (summary slow_app_high) /\
  ~ occurs (severity slow_app_high)
      (reasoning (categorize_ticket slow_app_high)).
Proof.
  split; [unfold validated, valid_severity; simpl; tauto|].
  split; [reflexivity|]. split; [reflexivity|].
  split; [discriminate|].
  rewrite <- contains_occurs; discriminate.
Qed.

(** * Further properties of the engine *)

(** ** Strings *)


Lemma occurs_trans (a b c : string) : occurs a b -> occurs b c -> occurs a c.
Proof.
  intros [p [q ->]] [p' [q' ->]].
  exists (p' ++ p), (q ++ q').
  now rewrite !app_assoc_string.
Qed.

(** An ASCII keyword found in a summary, once lower-cased, is found in
    every text around it, once lower-cased. *)
Lemma mentions_extend (keywords : list string) (s s' : string) :
  forallb ascii_text keywords = true ->
  occurs s s' ->
  mentions keywords (lower s) -> mentions keywords (lower s').
Proof.
  intros A [before [after ->]] [keyword [Hin Hk]].
  exists keyword; split; trivial.
  rewrite forallb_forall in A; specialize (A _ Hin).
  apply contains_occurs, contains_lower_app_l; trivial.
  apply (contains_lower_app_r keyword after (String.length s)); trivial.
  now apply contains_occurs.
Qed.


Lemma str_in_false (x : string) (values : list string) :
  str_in x values = false <-> ~ In x values.
Proof.
  rewrite <- str_in_In; destruct (str_in x values); split; congruence.
Qed.

(** ** The decision table *)

(** Case analysis on the guards, each case with the meaning of its tests:
    membership for the severity lists, occurrence for the keyword scans. *)
Ltac read_guards :=
  repeat match goal with
         | H : str_in _ _ = true |- _ => apply str_in_In in H; simpl in H
         | H : str_in _ _ = false |- _ => apply str_in_false in H; simpl in H
         | H : any_in _ _ = true |- _ => apply any_in_mentions in H
         | H : any_in _ _ = false |- _ => apply any_in_false in H
         | H : String.eqb _ _ = true |- _ => apply String.eqb_eq in H
         | H : String.eqb _ _ = false |- _ => apply String.eqb_neq in H
         end.

Ltac settle :=
  cbn [In] in *; intuition (subst; try congruence; try discriminate).

(** The lower-cased severity is one of the four literals, or it fails every
    severity test of the function. *)
Lemma severity_guards (sev : string) :
  (sev = "critical" \/ sev = "high" \/ sev = "medium" \/ sev = "low") \/
  (str_in sev ["critical"; "high"] = false /\
   str_in sev ["medium"; "low"] = false /\
   (sev =? "high") = false).
Proof.
  unfold str_in; simpl.
  destruct (String.eqb_spec sev "critical"); [tauto|].
  destruct (String.eqb_spec sev "high"); [tauto|].
  destruct (String.eqb_spec sev "medium"); [tauto|].
  destruct (String.eqb_spec sev "low"); [tauto|].
  right; repeat split.
Qed.

(** Case analysis on the lower-cased severity, then on the keyword scans. *)
Ltac by_table ticket :=
  open_engine;
  destruct (severity_guards (lower (severity ticket)))
    as [[E | [E | [E | E]]] | (U & R & H)];
  [rewrite E | rewrite E | rewrite E | rewrite E | rewrite U, R, H];
  cbn -[any_in mentions In reasoning_template branch_checklist];
  split_guards; read_guards; settle.

(** X1. The decision is AI_CODE_PATCH exactly when the lower-cased severity
    is critical or high and the lower-cased summary has a code keyword, or
    the severity is high and it has a finance keyword, or it has no inquiry
    keyword. *)
Theorem code_patch_iff :
  forall ticket : TicketInput,
    decision (categorize_ticket ticket) = AI_CODE_PATCH <->
    In (lower (severity ticket)) ["critical"; "high"] /\
    (mentions code_keywords (lower (summary ticket)) \/
     (lower (severity ticket) = "high" /\
      mentions finance_keywords (lower (summary ticket))) \/
     ~ mentions inquiry_keywords (lower (summary ticket))).
Proof.
  intros ticket; by_table ticket.
Qed.

(** X2. Rule 2 fires exactly on the tickets whose lower-cased severity is
    high and whose lower-cased summary has a finance keyword and no code
    keyword. *)
Theorem rule2_branch_iff :
  forall ticket : TicketInput,
    branch_of ticket = Rule2 <->
    lower (severity ticket) = "high" /\
    ~ mentions code_keywords (lower (summary ticket)) /\
    mentions finance_keywords (lower (summary ticket)).
Proof.
  intros ticket; by_table ticket.
Qed.

(** ** Rule 2 and rule 3 *)

(** X3. Rule 2: a ticket whose lower-cased severity is high and whose
    lower-cased summary has a finance keyword and no code keyword gets
    AI_CODE_PATCH, the reasoning of rule 2 quoting the summary as given, and
    the freeze, alert and capture checklist. *)
Theorem rule2_plan :
  forall ticket : TicketInput,
    lower (severity ticket) = "high" ->
    ~ mentions code_keywords (lower (summary ticket)) ->
    mentions finance_keywords (lower (summary ticket)) ->
    categorize_ticket ticket =
      {| decision := AI_CODE_PATCH;
         reasoning :=
           "Severity is **HIGH** and involves a critical financial process (`"
           ++ summary ticket ++ "`). Likely requires code audit/patch.";
         next_actions_checklist :=
           ["Immediately freeze affected user accounts/processes.";
            "Alert compliance and security teams.";
            "Capture full transaction log details."] |}.
Proof.
  intros ticket Hsev Hcode Hfin; keyword_tests; open_engine.
  rewrite Hsev; simpl; rewrite Hcode, Hfin; reflexivity.
Qed.

(** Scenario B. *)
Lemma rule2_plan_witness :
  lower (severity by_email) = "high" /\
  ~ mentions code_keywords (lower (summary by_email)) /\
  mentions finance_keywords (lower (summary by_email)) /\
  reasoning (categorize_ticket by_email)
  = "Severity is **HIGH** and involves a critical financial process (`suspicious transaction flagged`). Likely requires code audit/patch.".
Proof.
  assert (K1 : ~ mentions code_keywords (lower (summary by_email)))
    by (apply any_in_false; reflexivity).
  assert (K2 : mentions finance_keywords (lower (summary by_email)))
    by (apply any_in_mentions; reflexivity).
  split; [reflexivity|]. split; [exact K1|]. split; [exact K2|].
  exact (f_equal reasoning (rule2_plan by_email eq_refl K1 K2)).
Defined.

(** X4. Rule 2 is for high only: a critical ticket whose summary has neither
    a code keyword nor an inquiry keyword gets the plan of the urgent
    default, finance keyword or not. *)
Theorem critical_skips_rule2 :
  forall ticket : TicketInput,
    lower (severity ticket) = "critical" ->
    ~ mentions code_keywords (lower (summary ticket)) ->
    ~ mentions inquiry_keywords (lower (summary ticket)) ->
    categorize_ticket ticket =
      {| decision := AI_CODE_PATCH;
         reasoning :=
           "Default routing for **CRITICAL** tickets. System failure is the most cautious default.";
         next_actions_checklist :=
           ["Manually triage to L2 developer support.";
            "Review the system health dashboard immediately.";
            "Capture full user session data."] |}.
Proof.
  intros ticket Hsev Hcode Hinq; keyword_tests; open_engine.
  rewrite Hsev; simpl; rewrite Hcode, Hinq; reflexivity.
Qed.

Lemma critical_skips_rule2_witness :
  mentions finance_keywords (lower (summary critical_fraud)) /\
  branch_of critical_fraud = DefaultUrgent /\
  next_actions_checklist (categorize_ticket critical_fraud)
  = branch_checklist DefaultUrgent.
Proof.
  split; [apply any_in_mentions; reflexivity|].
  split; [reflexivity|].
  refine (f_equal next_actions_checklist
            (critical_skips_rule2 critical_fraud eq_refl _ _));
    apply any_in_false; reflexivity.
Defined.

(** X5. Rule 3: a ticket whose lower-cased severity is medium or low and
    whose lower-cased summary has a workflow keyword gets VIBE_WORKFLOW, the
    reasoning of rule 3 with the severity in upper case and the account
    checklist, whatever other keywords the summary has. *)
Theorem rule3_plan :
  forall ticket : TicketInput,
    lower (severity ticket) = "medium" \/ lower (severity ticket) = "low" ->
    mentions workflow_keywords (lower (summary ticket)) ->
    categorize_ticket ticket =
      {| decision := VIBE_WORKFLOW;
         reasoning :=
           "Severity is **" ++ upper (lower (severity ticket)) ++
           "** and issue relates to known user/account procedural action. Vibe workflow exists.";
         next_actions_checklist :=
           ["Run Vibe Script 'User-Account-Unblock-v1.0'.";
            "Confirm two-factor authentication reset with user via secure channel.";
            "Document successful run in the ticket notes."] |}.
Proof.
  intros ticket Hsev Hflow; keyword_tests; open_engine.
  destruct Hsev as [E | E]; rewrite E; simpl; rewrite Hflow;
    split_guards; reflexivity.
Qed.

(** Scenario C; a summary that also has an inquiry keyword and two code
    keywords; and a summary whose K is U+212A KELVIN SIGN. *)
Lemma rule3_plan_witness :
  decision (categorize_ticket scenario_C) = VIBE_WORKFLOW /\
  mentions inquiry_keywords (lower (summary reset_pin_inquiry)) /\
  mentions code_keywords (lower (summary reset_pin_inquiry)) /\
  reasoning (categorize_ticket reset_pin_inquiry)
  = "Severity is **MEDIUM** and issue relates to known user/account procedural action. Vibe workflow exists." /\
  lower (summary kelvin_locked) = "account locked" /\
  next_actions_checklist (categorize_ticket kelvin_locked)
  = branch_checklist Rule3.
Proof.
  split.
  - rewrite (rule3_plan scenario_C (or_intror eq_refl));
      [reflexivity | apply any_in_mentions; reflexivity].
  - split; [apply any_in_mentions; reflexivity|].
    split; [apply any_in_mentions; reflexivity|].
    split.
    + refine (f_equal reasoning
                (rule3_plan reset_pin_inquiry (or_introl eq_refl) _)).
      apply any_in_mentions; reflexivity.
    + split; [reflexivity|].
      refine (f_equal next_actions_checklist
                (rule3_plan kelvin_locked (or_intror eq_refl) _)).
      apply any_in_mentions; reflexivity.
Defined.

(** ** Edge cases *)

(** X6. A severity outside the four literals, once lower-cased, passes no
    severity test: the ticket gets the plan of rule 4 when its lower-cased
    summary has an inquiry keyword and the plan of the final default
    otherwise, so VIBE_WORKFLOW in both cases, code keywords or not. *)
Theorem unknown_severity_falls_through :
  forall ticket : TicketInput,
    ~ In (lower (severity ticket)) severity_literals ->
    decision (categorize_ticket ticket) = VIBE_WORKFLOW /\
    (mentions inquiry_keywords (lower (summary ticket)) ->
     fires rule4 ticket = Some (categorize_ticket ticket)) /\
    (~ mentions inquiry_keywords (lower (summary ticket)) ->
     categorize_ticket ticket = default_procedural).
Proof.
  intros ticket Hsev; unfold severity_literals in Hsev.
  by_table ticket.
Qed.

Lemma unknown_severity_falls_through_witness :
  mentions code_keywords (lower (summary unknown_severity)) /\
  categorize_ticket unknown_severity = default_procedural.
Proof.
  split; [apply any_in_mentions; reflexivity|].
  assert (N : ~ In (lower (severity unknown_severity)) severity_literals)
    by (simpl; intros [H | [H | [H | [H | []]]]]; discriminate H).
  apply (unknown_severity_falls_through unknown_severity N).
  apply any_in_false; reflexivity.
Defined.






(** X8. Rule 1 survives any text put around the summary: when rule 1 fires
    on a ticket, it fires on every ticket of the same severity, up to letter
    case, whose summary contains the first summary. *)
Theorem rule1_stable_under_padding :
  forall ticket longer : TicketInput,
    same_modulo_case (severity longer) (severity ticket) ->
    occurs (summary ticket) (summary longer) ->
    branch_of ticket = Rule1 ->
    branch_of longer = Rule1 /\
    decision (categorize_ticket longer) = AI_CODE_PATCH.
Proof.
  intros ticket longer Hsev Hsum Hb; unfold same_modulo_case in Hsev.
  assert (G : str_in (lower (severity ticket)) ["critical"; "high"] = true
              /\ any_in code_keywords (lower (summary ticket)) = true).
  { revert Hb; open_engine; split_guards; try discriminate; tauto. }
  destruct G as [U K].
  apply any_in_mentions in K.
  apply (mentions_extend code_keywords _ _ eq_refl Hsum) in K.
  apply any_in_mentions in K.
  open_engine; rewrite Hsev, U, K; split; reflexivity.
Qed.

Lemma rule1_stable_under_padding_witness :
  occurs (summary plain) (summary padded) /\
  branch_of padded = Rule1.
Proof.
  assert (O : occurs (summary plain) (summary padded))
    by (exists "Fwd: ", " (how to proceed?)"; reflexivity).
  split; [exact O|].
  apply (rule1_stable_under_padding plain padded eq_refl O eq_refl).
Defined.

(** X9. The checklist names the branch: two tickets that get the same
    checklist took the same branch, and so got the same decision. *)
Theorem checklist_names_branch :
  forall ticket1 ticket2 : TicketInput,
    next_actions_checklist (categorize_ticket ticket1)
    = next_actions_checklist (categorize_ticket ticket2) ->
    branch_of ticket1 = branch_of ticket2 /\
    decision (categorize_ticket ticket1)
    = decision (categorize_ticket ticket2).
Proof.
  intros ticket1 ticket2.
  rewrite (branch_normal_form ticket1), (branch_normal_form ticket2).
  cbn [next_actions_checklist decision]; intros E.
  assert (B : branch_of ticket1 = branch_of ticket2)
    by (destruct (branch_of ticket1), (branch_of ticket2);
        try reflexivity; discriminate E).
  split; [exact B | now rewrite B].
Qed.

Lemma checklist_names_branch_witness :
  summary plain <> summary padded /\
  branch_of plain = branch_of padded.
Proof.
  split; [discriminate|].
  apply (checklist_names_branch plain padded eq_refl).
Defined.

(** X10. The final default tells the truth on validated tickets: a
    validated ticket gets the plan for unclassified medium/low tickets only
    when its severity is medium or low and its lower-cased summary has
    neither a workflow keyword nor an inquiry keyword. *)
Theorem final_default_only_routine :
  forall ticket : TicketInput,
    validated ticket ->
    branch_of ticket = DefaultProcedural ->
    (severity ticket = "medium" \/ severity ticket = "low") /\
    ~ mentions workflow_keywords (lower (summary ticket)) /\
    ~ mentions inquiry_keywords (lower (summary ticket)).
Proof.
  intros ticket V.
  pose proof (lower_valid_severity _ V) as L.
  unfold validated, valid_severity, severity_literals in V.
  open_engine; rewrite L.
  cbn [In] in V; destruct V as [E | [E | [E | [E | []]]]]; rewrite <- E;
    cbn -[any_in mentions]; split_guards; read_guards;
    intros B; try discriminate B; tauto.
Qed.

(** Scenario F. *)
Lemma final_default_only_routine_witness :
  validated scenario_F /\
  branch_of scenario_F = DefaultProcedural /\
  ~ mentions inquiry_keywords (lower (summary scenario_F)).
Proof.
  assert (V : validated scenario_F)
    by (unfold validated, valid_severity; simpl; tauto).
  split; [exact V|]. split; [reflexivity|].
  apply (final_default_only_routine scenario_F V eq_refl).
Defined.

(** ** Keyword lists *)

Lemma mentions_incl (small big : list string) (s : string) :
  (forall keyword, In keyword small ->
     exists other, In other big /\ occurs other keyword) ->
  mentions small s -> mentions big s.
Proof.
  intros Hcover [keyword [Hin Ho]].
  destruct (Hcover _ Hin) as [other [Hin' Ho']].
  exists other; split; trivial.
  eapply occurs_trans; eassumption.
Qed.

Lemma occurs_refl (s : string) : occurs s s.
Proof.
  exists "", ""; simpl.
  induction s as [|c s IH]; simpl; [reflexivity | now rewrite <- IH].
Qed.

(** X11. The keyword "account blocked" of rule 3 never decides anything:
    every text that contains it contains "locked", so the scan of rule 3
    gives the same answer on every text with that keyword taken out of the
    list. *)
Theorem account_blocked_is_covered :
  forall s : string,
    any_in workflow_keywords s = any_in workflow_keywords_but_blocked s.
Proof.
  intros s; apply eq_true_iff_eq; rewrite !any_in_mentions.
  split; apply mentions_incl; intros keyword Hin; simpl in Hin.
  - destruct Hin as [<- | [<- | [<- | [<- | [<- | [<- | [<- | []]]]]]]];
      try (eexists; split; [|apply occurs_refl]; simpl; tauto).
    exists "locked"; split; [simpl; tauto|].
    exists "account b", ""; reflexivity.
  - destruct Hin as [<- | [<- | [<- | [<- | [<- | [<- | []]]]]]];
      (eexists; split; [|apply occurs_refl]; simpl; tauto).
Qed.
